(** * synaptiks.touchpad: typed attributes over input device properties

    A shallow embedding of [synaptiks/touchpad.py] (Python 2, with
    [from __future__ import division]): the [device_property] descriptor,
    the [Touchpad] class with its catalogue of descriptors, its discovery
    class methods and its read-only capability views.

    Python values are embedded as a small tagged union, Python floats as
    the kernel's binary64 numbers, exceptions as an error type, and the
    input device as an explicit store threaded through a state and error
    monad. *)

From Stdlib Require Import ZArith String List Floats Lia.
From stdpp Require Import base gmap strings list fin_maps.

Set Default Proof Using "Type".

(** ** Python values, exceptions and the builtins the module calls *)

Module Py.

(** The scalars that travel between the descriptors and the device.
    [bool] is a subclass of [int] in Python: [True] counts as [1]. *)
Inductive value : Type :=
  | VInt (z : Z)
  | VFloat (f : float)
  | VBool (b : bool).

Inductive exn : Type :=
  | ValueError
  | IndexError
  | TypeError
  | OverflowError
  | ZeroDivisionError
  | AttributeError
  | UnicodeEncodeError
  | KeyError
  | NoTouchpadError
  | XInputVersionError.

Inductive result (A : Type) : Type :=
  | Ok (a : A)
  | Raise (e : exn).
Arguments Ok {A} a.
Arguments Raise {A} e.

#[global] Instance result_ret : MRet result := @Ok.
#[global] Instance result_bind : MBind result := fun A B k r =>
  match r with
  | Ok a => k a
  | Raise e => Raise e
  end.

Definition int_of_bool (b : bool) : Z := if b then 1%Z else 0%Z.

(** [bool(v)]: zero is false, everything else (a NaN included) is true. *)
Definition bool_ (v : value) : bool :=
  match v with
  | VInt z => negb (z =? 0)%Z
  | VFloat f => negb (f =? 0)%float
  | VBool b => b
  end.

(** [v != 0] compares numerically, so it is the truth value of [v]. *)
Definition ne_zero (v : value) : bool := bool_ v.

(** Conversion of an integer to a float, correctly rounded (ties to
    even); Python raises [OverflowError] beyond the float range. *)
Definition float_of_int (z : Z) : result float :=
  let f := SF2Prim (binary_normalize prec emax z 0 false) in
  if is_infinity f then Raise OverflowError else Ok f.

Definition as_float (v : value) : result float :=
  match v with
  | VFloat f => Ok f
  | VInt z => float_of_int z
  | VBool b => float_of_int (int_of_bool b)
  end.

(** The integer a value stands for, when it is not a float. *)
Definition as_int (v : value) : option Z :=
  match v with
  | VInt z => Some z
  | VBool b => Some (int_of_bool b)
  | VFloat _ => None
  end.

(** [int(v)]: floats are truncated towards zero; NaN and the infinities
    have no integer. *)
Definition int_ (v : value) : result value :=
  match v with
  | VInt z => Ok (VInt z)
  | VBool b => Ok (VInt (int_of_bool b))
  | VFloat f =>
      match Prim2SF f with
      | S754_nan => Raise ValueError
      | S754_infinity _ => Raise OverflowError
      | S754_zero _ => Ok (VInt 0)
      | S754_finite s m e =>
          let a := if (0 <=? e)%Z then Z.shiftl (Zpos m) e
                   else Z.shiftr (Zpos m) (- e) in
          Ok (VInt (if s then (- a)%Z else a))
      end
  end.

(** [a * b] on numbers: integer product unless one side is a float. *)
Definition mul (a b : value) : result value :=
  match as_int a, as_int b with
  | Some x, Some y => Ok (VInt (x * y))
  | _, _ =>
      x ← as_float a;
      y ← as_float b;
      Ok (VFloat (x * y)%float)
  end.

(** True division of two integers: the exact quotient rounded once to
    the nearest float, with the sign of a zero result taken from the
    operands. *)
Definition int_truediv (a b : Z) : result float :=
  match a, b with
  | _, Z0 => Raise ZeroDivisionError
  | Z0, _ => Ok (if (b <? 0)%Z then neg_zero else zero)
  | _, _ =>
      let sf (z : Z) := S754_finite (z <? 0)%Z (Z.to_pos (Z.abs z)) 0 in
      let f := SF2Prim (SFdiv prec emax (sf a) (sf b)) in
      if is_infinity f then Raise OverflowError else Ok f
  end.

(** [a / b] under [from __future__ import division]. *)
Definition truediv (a b : value) : result value :=
  match as_int a, as_int b with
  | Some x, Some y => f ← int_truediv x y; Ok (VFloat f)
  | _, _ =>
      x ← as_float a;
      y ← as_float b;
      if (y =? 0)%float then Raise ZeroDivisionError
      else Ok (VFloat (x / y)%float)
  end.

(** [math.pi] and the two module constants of CPython's [mathmodule.c]:
    [degToRad = pi / 180.0] and [radToDeg = 180.0 / pi]. *)
Definition pi : float := 0x1.921fb54442d18p+1%float.
Definition degToRad : float := (pi / 180)%float.
Definition radToDeg : float := (180 / pi)%float.

(** [math.degrees(x)] is [x * radToDeg], [math.radians(x)] is
    [x * degToRad], after [x] is converted to a float. *)
Definition math_degrees (v : value) : result value :=
  x ← as_float v; Ok (VFloat (x * radToDeg)%float).

Definition math_radians (v : value) : result value :=
  x ← as_float v; Ok (VFloat (x * degToRad)%float).

(** List subscription [l[i]] and item assignment [l[i] = x] with an
    integer index: a negative index counts from the end, anything outside
    [-len(l) .. len(l) - 1] raises [IndexError]. *)
Definition index {A} (l : list A) (i : Z) : result nat :=
  let n := Z.of_nat (length l) in
  if ((0 <=? i) && (i <? n))%Z then Ok (Z.to_nat i)
  else if ((i <? 0) && (0 <=? i + n))%Z then Ok (Z.to_nat (i + n))
  else Raise IndexError.

Definition getitem {A} (l : list A) (i : Z) : result A :=
  n ← index l i;
  match l !! n with
  | Some x => Ok x
  | None => Raise IndexError
  end.

Definition setitem {A} (l : list A) (i : Z) (x : A) : result (list A) :=
  n ← index l i;
  Ok (<[n := x]> l).

(** The slice [l[a:b]] for literal bounds [0 <= a <= b]; a slice never
    raises, it is cut at the end of the list. *)
Definition slice {A} (l : list A) (a b : nat) : list A :=
  take (b - a) (drop a l).

(** [sum(l, start)] over booleans and [all(l)]. *)
Definition sum (l : list bool) (start : Z) : Z :=
  fold_left (fun acc b => (acc + int_of_bool b)%Z) l start.

Definition all (l : list bool) : bool := forallb id l.

End Py.

(** ** The input device the descriptors talk to *)

Module X11.
Import Py.

(** Modelled from the spec: the raw value of one slot, "the wire-level
    scalar stored by the device-property protocol", is an integer (or a
    byte) or a float; there is no boolean on the wire. *)
Inductive raw : Type :=
  | RInt (z : Z)
  | RFloat (f : float).

(** What the Python side sees of a raw value. *)
Definition decode (r : raw) : value :=
  match r with
  | RInt z => VInt z
  | RFloat f => VFloat f
  end.

(** Modelled from the spec: "boolean domain values are encoded as 0/1 on
    the wire"; numbers are stored as they are. *)
Definition encode (v : value) : raw :=
  match v with
  | VInt z => RInt z
  | VFloat f => RFloat f
  | VBool b => RInt (int_of_bool b)
  end.

(** A request sent to the device property transport. *)
Inductive request : Type :=
  | GetProperty (name : string)
  | SetProperty (type name : string) (values : list value).

(** Modelled from the spec: [synaptiks.x11.input.InputDevice] is not part
    of this module. A device is a handle with named properties, each a
    sequence of raw values, "readable/writable as a whole sequence"; the
    record also keeps the requests made so far, oldest first. *)
Record InputDevice : Type := {
  device_id : Z;
  properties : gmap string (list raw);
  requests : list request
}.

(** Computations against one device: they may raise and may change the
    device. *)
Definition M (A : Type) : Type := InputDevice → result A * InputDevice.

#[global] Instance M_ret : MRet M := fun A a d => (Ok a, d).
#[global] Instance M_bind : MBind M := fun A B k m d =>
  match m d with
  | (Ok a, d') => k a d'
  | (Raise e, d') => (Raise e, d')
  end.

Definition lift {A} (r : result A) : M A := fun d => (r, d).

Definition sent (q : request) (d : InputDevice) : InputDevice :=
  {| device_id := device_id d;
     properties := properties d;
     requests := requests d ++ [q] |}.

(** Modelled from the spec: [obj[name]] is
    [getProperty(device, propertyName) -> sequence<RawPropertyValue>],
    a fresh query that leaves the properties alone and answers with a
    list of its own. A name the device does not define is reported as
    [KeyError]. *)
Definition getitem (name : string) : M (list value) := fun d =>
  match properties d !! name with
  | Some slots => (Ok (decode <$> slots), sent (GetProperty name) d)
  | None => (Raise KeyError, sent (GetProperty name) d)
  end.

(** Modelled from the spec: [set_int], [set_byte], [set_float] and
    [set_bool] are the "one setter per wire type"; each replaces the whole
    sequence of the property, "visible immediately to any reader". *)
Definition set_raw (type name : string) (values : list value) : M () := fun d =>
  (Ok (),
   {| device_id := device_id d;
      properties := <[name := encode <$> values]> (properties d);
      requests := requests d ++ [SetProperty type name values] |}).

Definition set_int := set_raw "int".
Definition set_byte := set_raw "byte".
Definition set_float := set_raw "float".
Definition set_bool := set_raw "bool".

(** A string is ASCII when each of its characters is below 128. *)
Definition is_ascii (s : string) : bool :=
  forallb (fun c => (Ascii.nat_of_ascii c <? 128)%nat) (list_ascii_of_string s).

(** [getattr(obj, attr)] for the setter names. The module is compiled
    with [unicode_literals], so the name is a unicode string, which
    Python 2 first encodes with the ASCII codec: that raises
    [UnicodeEncodeError] for a name with a character outside ASCII. Any
    other attribute looked up this way is missing. *)
Definition getattr (attr : string) : result (string → list value → M ()) :=
  if negb (is_ascii attr) then Raise UnicodeEncodeError
  else if String.eqb attr "set_int" then Ok set_int
  else if String.eqb attr "set_byte" then Ok set_byte
  else if String.eqb attr "set_float" then Ok set_float
  else if String.eqb attr "set_bool" then Ok set_bool
  else Raise AttributeError.

(** Modelled from the spec: a display is the connection devices are
    enumerated on; [find_devices_with_property] is
    [enumerateDevicesWithProperty], which yields, in enumeration order,
    the devices that expose the property and fails when the XInput
    version is insufficient. The iterator it returns is embedded as the
    list of what it yields. *)
Record Display : Type := {
  xinput_supported : bool;
  devices : list InputDevice
}.

Definition has_property (name : string) (d : InputDevice) : bool :=
  match properties d !! name with
  | Some _ => true
  | None => false
  end.

Definition find_devices_with_property (display : Display) (name : string)
  : result (list InputDevice) :=
  if xinput_supported display
  then Ok (List.filter (has_property name) (devices display))
  else Raise XInputVersionError.

End X11.

(** ** The module [synaptiks.touchpad] *)

Module touchpad.
Import Py X11.

(** *** class [device_property]: an attribute mapped to a property of an
    input device *)

Record device_property : Type := {
  property_name : string;
  property_type : string;
  item : Z;
  convert_from_property : value → result value;
  convert_to_property : value → result value
}.

Definition PROPERTY_TYPES : list string := ["int"; "byte"; "float"; "bool"].

(** [x in t] on a tuple of strings. *)
Definition contains (t : list string) (x : string) : bool :=
  existsb (String.eqb x) t.

(** [device_property.__init__]; the docstring argument carries no
    behaviour and is left out. The two conversion methods of the class
    return their argument. *)
Definition __init__ (property_name property_type : string) (item : Z)
  : result device_property :=
  if negb (contains PROPERTY_TYPES property_type) then Raise ValueError
  else Ok {| property_name := property_name;
             property_type := property_type;
             item := item;
             convert_from_property := fun value => Ok value;
             convert_to_property := fun value => Ok value |}.

(** [device_property.__get__] on an instance ([obj] is a device; on the
    class itself the descriptor is returned and no device is involved). *)
Definition __get__ (self : device_property) : M value :=
  values ← X11.getitem (property_name self);
  let values :=
    if String.eqb (property_type self) "bool"
    then (fun v => VBool (bool_ v)) <$> values
    else values in
  v ← lift (Py.getitem values (item self));
  lift (convert_from_property self v).

(** [device_property.__set__]: the right-hand side of the item assignment
    is evaluated before the item is stored. *)
Definition __set__ (self : device_property) (value : value) : M () :=
  values ← X11.getitem (property_name self);
  raw ← lift (convert_to_property self value);
  values ← lift (Py.setitem values (item self) raw);
  set_property ← lift (getattr ("set_" ++ property_type self));
  set_property (property_name self) values.

(** Assignment of a conversion on one instance, as the class body of
    [Touchpad] does after constructing two of its descriptors. *)
Definition with_convert_from_property (f : value → result value)
  (p : device_property) : device_property :=
  {| property_name := property_name p;
     property_type := property_type p;
     item := item p;
     convert_from_property := f;
     convert_to_property := convert_to_property p |}.

Definition with_convert_to_property (f : value → result value)
  (p : device_property) : device_property :=
  {| property_name := property_name p;
     property_type := property_type p;
     item := item p;
     convert_from_property := convert_from_property p;
     convert_to_property := f |}.

(** A constructor call in a class body: the call has to return for the
    class to exist, and here each one does. *)
Definition returns {A} (r : result A) : bool :=
  match r with
  | Ok _ => true
  | Raise _ => false
  end.

Definition new {A} (r : result A) : returns r = true → A :=
  match r with
  | Ok a => fun _ => a
  | Raise _ => fun H => match Bool.diff_false_true H with end
  end.

(** *** class [Touchpad(InputDevice)] *)

Definition Touchpad : Type := InputDevice.

Definition find_all (display : Display) : result (list Touchpad) :=
  find_devices_with_property display "Synaptics Off".

(** [next(iterator, None)]. *)
Definition next {A} (iterator : list A) : option A :=
  match iterator with
  | x :: _ => Some x
  | [] => None
  end.

Definition find_first (display : Display) : result Touchpad :=
  iterator ← find_all display;
  match next iterator with
  | None => Raise NoTouchpadError
  | Some touchpad => Ok touchpad
  end.

Definition off := new (__init__ "Synaptics Off" "byte" 0) eq_refl.

Definition _move_speed_property (item : Z) :=
  __init__ "Synaptics Move Speed" "float" item.
Definition minimum_speed := new (_move_speed_property 0) eq_refl.
Definition maximum_speed := new (_move_speed_property 1) eq_refl.
Definition acceleration_factor := new (_move_speed_property 2) eq_refl.

Definition _tap_action_property (item : Z) :=
  __init__ "Synaptics Tap Action" "byte" item.
Definition rt_tap_action := new (_tap_action_property 0) eq_refl.
Definition rb_tap_action := new (_tap_action_property 1) eq_refl.
Definition lt_tap_action := new (_tap_action_property 2) eq_refl.
Definition lb_tap_action := new (_tap_action_property 3) eq_refl.
Definition f1_tap_action := new (_tap_action_property 4) eq_refl.
Definition f2_tap_action := new (_tap_action_property 5) eq_refl.
Definition f3_tap_action := new (_tap_action_property 6) eq_refl.

Definition tap_and_drag_gesture :=
  new (__init__ "Synaptics Gestures" "bool" 0) eq_refl.

Definition locked_drags :=
  new (__init__ "Synaptics Locked Drags" "bool" 0) eq_refl.

(** [convert_from_property = lambda v: v / 1000] and
    [convert_to_property = lambda v: int(1000 * v)]. *)
Definition locked_drags_timeout :=
  with_convert_to_property (fun v => x ← mul (VInt 1000) v; int_ x)
    (with_convert_from_property (fun v => truediv v (VInt 1000))
       (new (__init__ "Synaptics Locked Drags Timeout" "int" 0) eq_refl)).

Definition _edge_scrolling_property (item : Z) :=
  __init__ "Synaptics Edge Scrolling" "bool" item.
Definition vertical_edge_scrolling := new (_edge_scrolling_property 0) eq_refl.
Definition horizontal_edge_scrolling := new (_edge_scrolling_property 1) eq_refl.
Definition corner_coasting := new (_edge_scrolling_property 2) eq_refl.

Definition _scrolling_distance_property (item : Z) :=
  __init__ "Synaptics Scrolling Distance" "int" item.
Definition vertical_scrolling_distance :=
  new (_scrolling_distance_property 0) eq_refl.
Definition horizontal_scrolling_distance :=
  new (_scrolling_distance_property 1) eq_refl.

Definition coasting_speed :=
  new (__init__ "Synaptics Coasting Speed" "float" 0) eq_refl.

Definition _two_finger_scrolling_property (item : Z) :=
  __init__ "Synaptics Two-Finger Scrolling" "bool" item.
Definition vertical_two_finger_scrolling :=
  new (_two_finger_scrolling_property 0) eq_refl.
Definition horizontal_two_finger_scrolling :=
  new (_two_finger_scrolling_property 1) eq_refl.

Definition circular_scrolling :=
  new (__init__ "Synaptics Circular Scrolling" "bool" 0) eq_refl.

Definition circular_scrolling_trigger :=
  new (__init__ "Synaptics Circular Scrolling Trigger" "byte" 0) eq_refl.

(** [convert_from_property = math.degrees] and
    [convert_to_property = math.radians]. *)
Definition circular_scrolling_distance :=
  with_convert_to_property math_radians
    (with_convert_from_property math_degrees
       (new (__init__ "Synaptics Circular Scrolling Distance" "float" 0)
          eq_refl)).

(** The descriptors of the class, in the order of the class body. *)
Definition descriptors : list device_property :=
  [ off; minimum_speed; maximum_speed; acceleration_factor;
    rt_tap_action; rb_tap_action; lt_tap_action; lb_tap_action;
    f1_tap_action; f2_tap_action; f3_tap_action;
    tap_and_drag_gesture; locked_drags; locked_drags_timeout;
    vertical_edge_scrolling; horizontal_edge_scrolling; corner_coasting;
    vertical_scrolling_distance; horizontal_scrolling_distance;
    coasting_speed;
    vertical_two_finger_scrolling; horizontal_two_finger_scrolling;
    circular_scrolling; circular_scrolling_trigger;
    circular_scrolling_distance ].

(** *** The read-only properties of [Touchpad] *)

Definition coasting : M bool :=
  speed ← __get__ coasting_speed;
  mret (ne_zero speed).

Definition capabilities : M (list bool) :=
  values ← X11.getitem "Synaptics Capabilities";
  mret (bool_ <$> values).

Definition finger_detection : M Z :=
  caps ← capabilities;
  let finger_capabilities := slice caps 3 5 in
  mret (sum finger_capabilities 1).

Record PhysicalButtons : Type := {
  left : bool;
  middle : bool;
  right : bool
}.

(** The named tuple is built from an unpacked argument list and takes
    exactly three arguments. *)
Definition PhysicalButtons_new (args : list bool) : result PhysicalButtons :=
  match args with
  | [l; m; r] => Ok {| left := l; middle := m; right := r |}
  | _ => Raise TypeError
  end.

Definition buttons : M PhysicalButtons :=
  caps ← capabilities;
  lift (PhysicalButtons_new (slice caps 0 3)).

Definition has_pressure_detection : M bool :=
  caps ← capabilities;
  lift (Py.getitem caps 5).

Definition has_finger_width_detection : M bool :=
  caps ← capabilities;
  lift (Py.getitem caps 6).

Definition has_two_finger_emulation : M bool :=
  caps ← capabilities;
  mret (all (slice caps 5 7)).

End touchpad.

From Stdlib Require Import Reals Lra Psatz.

(** ** Vocabulary of the statements *)

(** What a descriptor of the given property type reads off one raw
    slot, before its conversion. *)
Definition as_read (type : string) (r : X11.raw) : Py.value :=
  if String.eqb type "bool" then Py.VBool (Py.bool_ (X11.decode r))
  else X11.decode r.








(** A computation that only queries the device: it leaves every property
    as it was and sends nothing but [GetProperty] requests. *)
Definition read_only {A} (m : X11.M A) : Prop :=
  ∀ d, X11.device_id (m d).2 = X11.device_id d ∧
       X11.properties (m d).2 = X11.properties d ∧
       ∃ names, X11.requests (m d).2
                = X11.requests d ++ (X11.GetProperty <$> names).

(** The conversion a descriptor applies to what it reads fails, if it
    does, with an error of its own and never with [IndexError]. *)
Definition conversion_does_not_index (p : touchpad.device_property) : Prop :=
  ∀ v, touchpad.convert_from_property p v ≠ Py.Raise Py.IndexError.

(** A device that defines a single property, with no request made yet. *)
Definition device_with (name : string) (slots : list X11.raw) : X11.InputDevice :=
  {| X11.device_id := 0;
     X11.properties := {[ name := slots ]};
     X11.requests := [] |}.

Section set_outcome.
Import Py X11 touchpad.

(** The outcome of [__set__], case by case, in the order in which the
    body can fail. *)
Inductive set_outcome (p : device_property) (v : value) (d : InputDevice)
  : result () → InputDevice → Prop :=
  | set_undefined :
      properties d !! property_name p = None →
      set_outcome p v d (Raise KeyError)
        (sent (GetProperty (property_name p)) d)
  | set_unconverted slots e :
      properties d !! property_name p = Some slots →
      convert_to_property p v = Raise e →
      set_outcome p v d (Raise e) (sent (GetProperty (property_name p)) d)
  | set_out_of_range slots w :
      properties d !! property_name p = Some slots →
      convert_to_property p v = Ok w →
      index slots (item p) = Raise IndexError →
      set_outcome p v d (Raise IndexError)
        (sent (GetProperty (property_name p)) d)
  | set_no_setter slots w n :
      properties d !! property_name p = Some slots →
      convert_to_property p v = Ok w →
      index slots (item p) = Ok n →
      contains PROPERTY_TYPES (property_type p) = false →
      set_outcome p v d
        (Raise (if is_ascii (property_type p) then AttributeError
                else UnicodeEncodeError))
        (sent (GetProperty (property_name p)) d)
  | set_written slots w n :
      properties d !! property_name p = Some slots →
      convert_to_property p v = Ok w →
      index slots (item p) = Ok n →
      n < length slots →
      contains PROPERTY_TYPES (property_type p) = true →
      set_outcome p v d (Ok ())
        {| device_id := device_id d;
           properties :=
             <[property_name p := <[n := encode w]> slots]> (properties d);
           requests :=
             requests d ++
               [GetProperty (property_name p);
                SetProperty (property_type p) (property_name p)
                  (<[n := w]> (decode <$> slots))] |}.

End set_outcome.

(** * Properties *)

Import Py X11 touchpad.

(** ** Laws of the builtins *)

Section builtins.
Context {A : Type}.
Implicit Types (l : list A) (i : Z) (x : A).

Lemma index_in_range l i :
  (0 ≤ i < Z.of_nat (length l))%Z → index l i = Ok (Z.to_nat i).
Proof.
  intros [Hlo Hhi]. unfold index.
  apply Z.leb_le in Hlo as ->. apply Z.ltb_lt in Hhi as ->. done.
Qed.

Lemma index_past_end l i :
  (Z.of_nat (length l) ≤ i)%Z → index l i = Raise IndexError.
Proof.
  intros Hge. unfold index.
  replace (i <? Z.of_nat (length l))%Z with false by (symmetry; apply Z.ltb_ge; lia).
  replace (i <? 0)%Z with false by (symmetry; apply Z.ltb_ge; lia).
  by rewrite andb_false_r.
Qed.

Lemma getitem_in_range l i :
  (0 ≤ i < Z.of_nat (length l))%Z → ∃ x, l !! Z.to_nat i = Some x ∧ Py.getitem l i = Ok x.
Proof.
  intros Hi. destruct (lookup_lt_is_Some_2 l (Z.to_nat i)) as [x Hx]; [lia|].
  exists x. split; [done|].
  unfold Py.getitem. rewrite index_in_range by done. simpl. by rewrite Hx.
Qed.

Lemma getitem_past_end l i :
  (Z.of_nat (length l) ≤ i)%Z → Py.getitem l i = Raise IndexError.
Proof. intros Hge. unfold Py.getitem. by rewrite index_past_end. Qed.

Lemma setitem_in_range l i x :
  (0 ≤ i < Z.of_nat (length l))%Z → setitem l i x = Ok (<[Z.to_nat i := x]> l).
Proof. intros Hi. unfold setitem. by rewrite index_in_range. Qed.

Lemma setitem_past_end l i x :
  (Z.of_nat (length l) ≤ i)%Z → setitem l i x = Raise IndexError.
Proof. intros Hge. unfold setitem. by rewrite index_past_end. Qed.
End builtins.

Lemma encode_decode (r : raw) : encode (decode r) = r.
Proof. by destruct r. Qed.

Lemma fmap_encode_decode (slots : list raw) :
  encode <$> (decode <$> slots) = slots.
Proof.
  induction slots as [|r slots IH]; [done|].
  rewrite !fmap_cons, encode_decode. by f_equal.
Qed.

Lemma contains_elem_of (t : list string) (x : string) :
  contains t x = true ↔ x ∈ t.
Proof.
  unfold contains. rewrite existsb_exists. split.
  - intros (y & Hin & Heq). apply String.eqb_eq in Heq as ->.
    by apply list_elem_of_In.
  - intros Hin. exists x. split; [by apply list_elem_of_In|apply String.eqb_refl].
Qed.

Lemma PROPERTY_TYPES_inv (t : string) :
  contains PROPERTY_TYPES t = true →
  t = "int" ∨ t = "byte" ∨ t = "float" ∨ t = "bool".
Proof.
  rewrite contains_elem_of. unfold PROPERTY_TYPES.
  rewrite !elem_of_cons, elem_of_nil. tauto.
Qed.

(** The setter that [__set__] looks up by name exists for each of the
    four property types, and is the one of that type. *)
Lemma getattr_setter (t : string) :
  contains PROPERTY_TYPES t = true → getattr ("set_" ++ t) = Ok (set_raw t).
Proof.
  intros Ht. destruct (PROPERTY_TYPES_inv t Ht) as [-> | [-> | [-> | ->]]]; done.
Qed.

(** ** One run of [__get__] and of [__set__] *)

Section descriptor.
Variables (p : device_property) (d : InputDevice) (slots : list raw).
Hypothesis Hslots : properties d !! property_name p = Some slots.

Let asked : InputDevice := sent (GetProperty (property_name p)) d.

Lemma get_run :
  __get__ p d =
    (v ← Py.getitem (as_read (property_type p) <$> slots) (item p);
     convert_from_property p v, asked).
Proof using Hslots.
  unfold __get__, mbind, M_bind, X11.getitem, lift. rewrite Hslots.
  unfold as_read. destruct (String.eqb _ _).
  - rewrite <- list_fmap_compose.
    by destruct (Py.getitem _ _).
  - by destruct (Py.getitem _ _).
Qed.

Lemma get_in_range (r : raw) :
  (0 ≤ item p)%Z → slots !! Z.to_nat (item p) = Some r →
  __get__ p d = (convert_from_property p (as_read (property_type p) r), asked).
Proof using Hslots.
  intros Hlo Hr. rewrite get_run.
  apply lookup_lt_Some in Hr as Hlt.
  destruct (getitem_in_range (as_read (property_type p) <$> slots) (item p))
    as (x & Hx & ->).
  { rewrite length_fmap. lia. }
  rewrite list_lookup_fmap, Hr in Hx. by injection Hx as <-.
Qed.

Lemma get_past_end :
  (Z.of_nat (length slots) ≤ item p)%Z →
  __get__ p d = (Raise IndexError, asked).
Proof using Hslots.
  intros Hge. rewrite get_run, getitem_past_end; [done|].
  by rewrite length_fmap.
Qed.


Lemma set_past_end (v w : value) :
  convert_to_property p v = Ok w →
  (Z.of_nat (length slots) ≤ item p)%Z →
  __set__ p v d = (Raise IndexError, asked).
Proof using Hslots.
  intros Hv Hge. unfold __set__, mbind, M_bind, X11.getitem, lift.
  rewrite Hslots, Hv, setitem_past_end; [done|]. by rewrite length_fmap.
Qed.

Lemma set_in_range (v w : value) :
  contains PROPERTY_TYPES (property_type p) = true →
  convert_to_property p v = Ok w →
  (0 ≤ item p < Z.of_nat (length slots))%Z →
  __set__ p v d =
    (Ok (),
     {| device_id := device_id d;
        properties :=
          <[property_name p := <[Z.to_nat (item p) := encode w]> slots]>
            (properties d);
        requests :=
          requests d ++
            [GetProperty (property_name p);
             SetProperty (property_type p) (property_name p)
               (<[Z.to_nat (item p) := w]> (decode <$> slots))] |}).
Proof using Hslots.
  intros Ht Hv Hi. unfold __set__, mbind, M_bind, X11.getitem, lift.
  rewrite Hslots, Hv, setitem_in_range by (by rewrite length_fmap).
  rewrite (getattr_setter _ Ht). unfold set_raw. simpl.
  rewrite list_fmap_insert, fmap_encode_decode.
  by rewrite <- app_assoc.
Qed.
End descriptor.

(** ** Writing, then reading back *)






(** An error of the builtins is never an indexing error. *)
Lemma bind_not_index {A B} (r : result A) (k : A → result B) :
  r ≠ Raise IndexError → (∀ a, k a ≠ Raise IndexError) →
  (r ≫= k) ≠ Raise IndexError.
Proof.
  intros Hr Hk. destruct r as [a|e]; [apply Hk|].
  intros [= ->]. by apply Hr.
Qed.

Lemma float_of_int_not_index (z : Z) : float_of_int z ≠ Raise IndexError.
Proof. unfold float_of_int. by destruct (is_infinity _). Qed.

Lemma as_float_not_index (v : value) : as_float v ≠ Raise IndexError.
Proof. destruct v; simpl; [apply float_of_int_not_index|done|apply float_of_int_not_index]. Qed.

Lemma int_truediv_not_index (a b : Z) : int_truediv a b ≠ Raise IndexError.
Proof.
  unfold int_truediv.
  destruct a, b; try done; by destruct (is_infinity _).
Qed.

Lemma float_op_not_index (a b : value) (k : float → float → result value) :
  (∀ x y, k x y ≠ Raise IndexError) →
  (x ← as_float a; y ← as_float b; k x y) ≠ Raise IndexError.
Proof.
  intros Hk. apply bind_not_index; [apply as_float_not_index|].
  intros x. apply bind_not_index; [apply as_float_not_index|]. apply Hk.
Qed.

Lemma truediv_not_index (a b : value) : truediv a b ≠ Raise IndexError.
Proof.
  unfold truediv.
  destruct (as_int a) as [x|], (as_int b) as [y|];
    [apply bind_not_index; [apply int_truediv_not_index|done]
    |apply float_op_not_index; intros ? y'; by destruct (y' =? 0)%float ..].
Qed.

Lemma math_degrees_not_index (v : value) : math_degrees v ≠ Raise IndexError.
Proof. apply bind_not_index; [apply as_float_not_index|done]. Qed.

Lemma descriptors_conversions (p : device_property) :
  p ∈ descriptors → conversion_does_not_index p.
Proof.
  unfold descriptors. rewrite !elem_of_cons, elem_of_nil.
  intros H v.
  repeat (destruct H as [-> | H]; [try discriminate|]); try done.
  - apply truediv_not_index.
  - apply math_degrees_not_index.
Qed.

Lemma device_with_lookup (name : string) (slots : list raw) :
  properties (device_with name slots) !! name = Some slots.
Proof. apply lookup_singleton_eq. Qed.



(** ** The two descriptors with conversions of their own *)

Example locked_drags_timeout_to_property :
  convert_to_property locked_drags_timeout (VFloat 2.5) = Ok (VInt 2500).
Proof. vm_compute. reflexivity. Qed.

Example locked_drags_timeout_from_property :
  convert_from_property locked_drags_timeout (VInt 2500) = Ok (VFloat 2.5).
Proof. vm_compute. reflexivity. Qed.

(** [math.radians(90)] is the float nearest to pi/2, and it converts back
    to [90] exactly. *)
Example circular_scrolling_distance_to_property :
  convert_to_property circular_scrolling_distance (VFloat 90)
  = Ok (VFloat 0x1.921fb54442d18p+0).
Proof. vm_compute. reflexivity. Qed.

Example circular_scrolling_distance_from_property :
  convert_from_property circular_scrolling_distance
    (VFloat 0x1.921fb54442d18p+0) = Ok (VFloat 90).
Proof. vm_compute. reflexivity. Qed.

(** The truncation in [int(1000 * v)] also bites on a whole number of
    milliseconds: 1001 ms reads as the float nearest to 1.001, whose
    product with 1000 falls just below 1001. *)
Example locked_drags_timeout_1001_ms :
  convert_from_property locked_drags_timeout (VInt 1001)
  = Ok (VFloat 0x1.004189374bc6ap+0) ∧
  convert_to_property locked_drags_timeout (VFloat 0x1.004189374bc6ap+0)
  = Ok (VInt 1000).
Proof. split; vm_compute; reflexivity. Qed.

(** ** Rounding of binary64 products and quotients *)

Section rounding.
Local Open Scope Z_scope.












End rounding.

Section real_rounding.
Local Open Scope R_scope.








End real_rounding.


Section float_rounding.
Local Open Scope R_scope.










(** *** Truncation and true division by 1000 *)










End float_rounding.

(** ** Claims about the descriptors *)




(** C2: when the property has a slot for the descriptor, [__set__] reads
    the sequence once and writes back that sequence with the element at
    the slot index replaced by the converted value and every other
    element as fetched; on the device only that slot changes, and any
    other descriptor over the same property reads afterwards what it
    read before. *)
Theorem set_keeps_sibling_slots (p : device_property) (d : InputDevice)
    (slots : list raw) (v w : value) :
  contains PROPERTY_TYPES (property_type p) = true →
  properties d !! property_name p = Some slots →
  (0 ≤ item p < Z.of_nat (length slots))%Z →
  convert_to_property p v = Ok w →
  let i := Z.to_nat (item p) in
  let fetched := decode <$> slots in
  let written := <[i := w]> fetched in
  let d' := (__set__ p v d).2 in
  (__set__ p v d).1 = Ok ()
  ∧ requests d' =
      requests d ++
        [GetProperty (property_name p);
         SetProperty (property_type p) (property_name p) written]
  ∧ written !! i = Some w
  ∧ (∀ j, j ≠ i → written !! j = fetched !! j)
  ∧ (∃ slots', properties d' !! property_name p = Some slots'
       ∧ slots' !! i = Some (encode w)
       ∧ ∀ j, j ≠ i → slots' !! j = slots !! j)
  ∧ (∀ q, property_name q = property_name p →
       (0 ≤ item q)%Z → item q ≠ item p →
       (__get__ q d').1 = (__get__ q d).1).
Proof.
  intros Ht Hslots Hi Hv i fetched written d'. subst d'.
  rewrite (set_in_range p d slots Hslots v w Ht Hv Hi). simpl.
  assert (i < length slots) as Hlt by (subst i; lia).
  split; [done|]. split; [done|]. split; [|split; [|split]].
  - apply list_lookup_insert_eq. subst fetched. by rewrite length_fmap.
  - intros j Hj. by apply list_lookup_insert_ne.
  - exists (<[i := encode w]> slots). split; [apply lookup_insert_eq|].
    split; [by apply list_lookup_insert_eq|].
    intros j Hj. by apply list_lookup_insert_ne.
  - intros q Hname Hq Hne.
    set (d' := {| device_id := device_id d |}).
    assert (properties d' !! property_name q
            = Some (<[i := encode w]> slots)) as Hslots'.
    { rewrite Hname. apply lookup_insert_eq. }
    rewrite <- Hname in Hslots.
    destruct (decide (item q < Z.of_nat (length slots))%Z) as [Hin|Hout].
    + destruct (lookup_lt_is_Some_2 slots (Z.to_nat (item q))) as [r Hr];
        [lia|].
      rewrite (get_in_range q d slots Hslots r Hq Hr).
      rewrite (get_in_range q d' _ Hslots' r Hq); [done|].
      rewrite list_lookup_insert_ne; [done|]. subst i. lia.
    + rewrite (get_past_end q d slots Hslots) by lia.
      rewrite (get_past_end q d' _ Hslots'); [done|].
      rewrite length_insert. lia.
Qed.

Lemma set_keeps_sibling_slots_witness :
  let d := device_with "Synaptics Tap Action"
             [RInt 0; RInt 3; RInt 0; RInt 2; RInt 1; RInt 3; RInt 2] in
  properties d !! property_name rt_tap_action
    = Some [RInt 0; RInt 3; RInt 0; RInt 2; RInt 1; RInt 3; RInt 2] ∧
  (__get__ rb_tap_action (__set__ rt_tap_action (VInt 1) d).2).1
    = (__get__ rb_tap_action d).1.
Proof.
  cbv zeta. split; [apply device_with_lookup|].
  refine (proj2 (proj2 (proj2 (proj2 (proj2
    (set_keeps_sibling_slots rt_tap_action
       (device_with "Synaptics Tap Action"
          [RInt 0; RInt 3; RInt 0; RInt 2; RInt 1; RInt 3; RInt 2])
       [RInt 0; RInt 3; RInt 0; RInt 2; RInt 1; RInt 3; RInt 2]
       (VInt 1) (VInt 1) _ _ _ _))))) rb_tap_action _ _ _).
  - reflexivity.
  - apply device_with_lookup.
  - simpl. lia.
  - reflexivity.
  - reflexivity.
  - simpl. lia.
  - simpl. lia.
Defined.

Lemma getattr_not_index (attr : string) : getattr attr ≠ Raise IndexError.
Proof.
  unfold getattr. destruct (is_ascii attr); [|done].
  by repeat destruct (String.eqb attr _).
Qed.

Lemma getattr_returns_setter (attr : string) f :
  getattr attr = Ok f → ∃ type, f = set_raw type.
Proof.
  unfold getattr. destruct (is_ascii attr); [|done]. cbn [negb].
  repeat destruct (String.eqb attr _); intros [= <-]; eauto.
Qed.

Lemma set_in_range_not_index (p : device_property) (d : InputDevice)
    (slots : list raw) (v w : value) :
  properties d !! property_name p = Some slots →
  (0 ≤ item p < Z.of_nat (length slots))%Z →
  convert_to_property p v = Ok w →
  (__set__ p v d).1 ≠ Raise IndexError.
Proof.
  intros Hslots Hi Hv. unfold __set__, mbind, M_bind, X11.getitem, lift.
  rewrite Hslots, Hv, setitem_in_range by (by rewrite length_fmap).
  pose proof (getattr_not_index ("set_" ++ property_type p)) as Hattr.
  destruct (getattr _) as [f|e] eqn:Hf; simpl; [|congruence].
  by destruct (getattr_returns_setter _ _ Hf) as [type ->].
Qed.

(** C3: for a descriptor with a slot index that is not negative, and on a
    device that reports a sequence for its property, [__get__] raises
    [IndexError] exactly when the sequence is not longer than the slot
    index, and so does [__set__] of a value that its conversion accepts
    (the conversion runs before the item is stored). The error is the
    subscription's: the conversion of what is read raises none of this
    kind, as is the case for every descriptor of the class. *)
Theorem slot_index_out_of_range (p : device_property) (d : InputDevice)
    (slots : list raw) (v w : value) :
  properties d !! property_name p = Some slots →
  (0 ≤ item p)%Z →
  conversion_does_not_index p →
  convert_to_property p v = Ok w →
  ((__get__ p d).1 = Raise IndexError
     ↔ (Z.of_nat (length slots) ≤ item p)%Z)
  ∧ ((__set__ p v d).1 = Raise IndexError
     ↔ (Z.of_nat (length slots) ≤ item p)%Z).
Proof.
  intros Hslots Hlo Hconv Hv.
  destruct (decide (item p < Z.of_nat (length slots))%Z) as [Hin|Hout].
  - split; (split; [|lia]); intros Hraise; exfalso.
    + destruct (lookup_lt_is_Some_2 slots (Z.to_nat (item p))) as [r Hr];
        [lia|].
      rewrite (get_in_range p d slots Hslots r Hlo Hr) in Hraise.
      by apply (Hconv (as_read (property_type p) r)).
    + by apply (set_in_range_not_index p d slots v w Hslots).
  - split; (split; [lia|intros _]).
    + rewrite (get_past_end p d slots Hslots); [done|lia].
    + rewrite (set_past_end p d slots Hslots v w Hv); [done|lia].
Qed.

Lemma slot_index_out_of_range_witness :
  let d := device_with "Synaptics Scrolling Distance" [RInt 100] in
  properties d !! property_name horizontal_scrolling_distance
    = Some [RInt 100] ∧
  (__get__ horizontal_scrolling_distance d).1 = Raise IndexError ∧
  (__set__ horizontal_scrolling_distance (VInt 50) d).1 = Raise IndexError.
Proof.
  cbv zeta. split; [apply device_with_lookup|].
  assert (horizontal_scrolling_distance ∈ descriptors) as Hp.
  { unfold descriptors. rewrite !elem_of_cons. tauto. }
  destruct (slot_index_out_of_range horizontal_scrolling_distance
    (device_with "Synaptics Scrolling Distance" [RInt 100]) [RInt 100]
    (VInt 50) (VInt 50)) as [Hget Hset].
  - apply device_with_lookup.
  - simpl. lia.
  - by apply descriptors_conversions.
  - reflexivity.
  - split; [apply Hget|apply Hset]; simpl; lia.
Defined.

(** ** Claims about discovery *)

(** C4: [find_all] is the enumeration of the devices that expose
    ["Synaptics Off"]; when it yields nothing, [find_first] raises
    [NoTouchpadError], and when it yields at least one device,
    [find_first] returns the first of them. *)
Theorem find_first_of_find_all (display : Display) (found : list Touchpad) :
  find_all display = Ok found →
  find_all display = find_devices_with_property display "Synaptics Off"
  ∧ (found = [] → find_first display = Raise NoTouchpadError)
  ∧ (∀ touchpad rest, found = touchpad :: rest →
       find_first display = Ok touchpad).
Proof.
  intros Hall. split; [done|]. unfold find_first. rewrite Hall. simpl.
  split; [by intros ->|by intros touchpad rest ->].
Qed.

Lemma find_first_of_find_all_witness :
  let mouse := {| device_id := 8; properties := ∅; requests := [] |} in
  let first := {| device_id := 11;
                  properties := {[ "Synaptics Off" := [RInt 0] ]};
                  requests := [] |} in
  let second := {| device_id := 12;
                   properties := {[ "Synaptics Off" := [RInt 1] ]};
                   requests := [] |} in
  let display := {| xinput_supported := true;
                    devices := [mouse; first; second] |} in
  find_all display = Ok [first; second] ∧ find_first display = Ok first.
Proof.
  cbv zeta.
  match goal with |- ?H ∧ _ => assert H as Hall by (vm_compute; reflexivity) end.
  split; [exact Hall|].
  exact (proj2 (proj2 (find_first_of_find_all _ _ Hall)) _ _ eq_refl).
Defined.

(** ** Claims about single descriptors and the capability views *)

(** C5: on a device whose timeout property has a first slot, setting
    [locked_drags_timeout] to 2.5 (seconds) leaves the integer 2500
    (milliseconds) in slot 0 and the other slots as they were, and
    getting it while slot 0 holds 2500 returns 2.5. *)
Theorem locked_drags_timeout_seconds (d : InputDevice) (r : raw)
    (rest : list raw) :
  properties d !! "Synaptics Locked Drags Timeout" = Some (r :: rest) →
  (__set__ locked_drags_timeout (VFloat 2.5) d).1 = Ok ()
  ∧ properties (__set__ locked_drags_timeout (VFloat 2.5) d).2
      !! "Synaptics Locked Drags Timeout" = Some (RInt 2500 :: rest)
  ∧ (r = RInt 2500 →
     (__get__ locked_drags_timeout d).1 = Ok (VFloat 2.5)).
Proof.
  intros Hslots.
  rewrite (set_in_range locked_drags_timeout d (r :: rest) Hslots
             (VFloat 2.5) (VInt 2500) eq_refl
             locked_drags_timeout_to_property)
    by (simpl; lia).
  split; [done|]. split; [apply lookup_insert_eq|].
  intros ->.
  rewrite (get_in_range locked_drags_timeout d _ Hslots (RInt 2500))
    by done.
  apply locked_drags_timeout_from_property.
Qed.

Lemma locked_drags_timeout_seconds_witness :
  let d := device_with "Synaptics Locked Drags Timeout" [RInt 2500] in
  properties d !! "Synaptics Locked Drags Timeout" = Some [RInt 2500] ∧
  (__get__ locked_drags_timeout d).1 = Ok (VFloat 2.5).
Proof.
  cbv zeta. split; [apply device_with_lookup|].
  refine (proj2 (proj2 (locked_drags_timeout_seconds
    (device_with "Synaptics Locked Drags Timeout" [RInt 2500])
    (RInt 2500) [] _)) eq_refl).
  apply device_with_lookup.
Defined.

Lemma capabilities_run (d : InputDevice) (slots : list raw) :
  properties d !! "Synaptics Capabilities" = Some slots →
  capabilities d =
    (Ok ((λ r, bool_ (decode r)) <$> slots),
     sent (GetProperty "Synaptics Capabilities") d).
Proof.
  intros Hslots. unfold capabilities, mbind, M_bind, X11.getitem.
  rewrite Hslots. simpl. unfold mret, M_ret.
  by rewrite <- list_fmap_compose.
Qed.

(** A view computed from the capabilities alone. *)
Lemma capabilities_bind {A} (k : list bool → M A) (d : InputDevice)
    (caps : list bool) :
  (capabilities d).1 = Ok caps →
  (capabilities ≫= k) d = k caps (capabilities d).2.
Proof.
  intros Hcaps. unfold mbind, M_bind.
  destruct (capabilities d) as [r d']. simpl in Hcaps. by subst r.
Qed.

(** C6: for a capabilities sequence of seven booleans,
    [finger_detection] is 1 plus the number of true values among the
    elements at indices 3 and 4; so it is 1 when both are false, 2 when
    one of them is true (also when only the one at index 4 is) and 3 when
    both are. *)
Theorem finger_detection_counts (d : InputDevice)
    (c0 c1 c2 c3 c4 c5 c6 : bool) :
  (capabilities d).1 = Ok [c0; c1; c2; c3; c4; c5; c6] →
  (finger_detection d).1
    = Ok (1 + Z.of_nat (count_occ bool_dec [c3; c4] true))%Z
  ∧ (c3 = false → c4 = false → (finger_detection d).1 = Ok 1%Z)
  ∧ (c3 = true → c4 = false → (finger_detection d).1 = Ok 2%Z)
  ∧ (c3 = false → c4 = true → (finger_detection d).1 = Ok 2%Z)
  ∧ (c3 = true → c4 = true → (finger_detection d).1 = Ok 3%Z).
Proof.
  intros Hcaps. unfold finger_detection.
  rewrite (capabilities_bind _ d _ Hcaps). simpl.
  repeat split; try (intros -> ->; reflexivity).
  by destruct c3, c4.
Qed.

Lemma finger_detection_counts_witness :
  let d := device_with "Synaptics Capabilities"
             [RInt 1; RInt 1; RInt 1; RInt 1; RInt 0; RInt 0; RInt 0] in
  (capabilities d).1 = Ok [true; true; true; true; false; false; false] ∧
  (finger_detection d).1 = Ok 2%Z.
Proof.
  cbv zeta.
  match goal with |- ?H ∧ _ => assert H as Hcaps by (vm_compute; reflexivity) end.
  split; [exact Hcaps|].
  exact (proj1 (proj2 (proj2 (finger_detection_counts _ _ _ _ _ _ _ _ Hcaps)))
           eq_refl eq_refl).
Defined.

(** C7: for a capabilities sequence of seven booleans,
    [has_two_finger_emulation] is the conjunction of the elements at
    indices 5 and 6: true exactly when both are true. *)
Theorem has_two_finger_emulation_iff (d : InputDevice)
    (c0 c1 c2 c3 c4 c5 c6 : bool) :
  (capabilities d).1 = Ok [c0; c1; c2; c3; c4; c5; c6] →
  (has_two_finger_emulation d).1 = Ok (c5 && c6)
  ∧ ((has_two_finger_emulation d).1 = Ok true ↔ c5 = true ∧ c6 = true)
  ∧ (c5 = false ∨ c6 = false → (has_two_finger_emulation d).1 = Ok false).
Proof.
  intros Hcaps. unfold has_two_finger_emulation.
  rewrite (capabilities_bind _ d _ Hcaps). simpl.
  unfold all, slice. simpl. rewrite andb_true_r.
  split; [done|]. split.
  - split; [intros [= H]; by apply andb_true_iff in H|].
    by intros [-> ->].
  - intros [-> | ->]; [done|by rewrite andb_false_r].
Qed.

Lemma has_two_finger_emulation_iff_witness :
  let d := device_with "Synaptics Capabilities"
             [RInt 1; RInt 0; RInt 1; RInt 0; RInt 0; RInt 1; RInt 1] in
  (capabilities d).1 = Ok [true; false; true; false; false; true; true] ∧
  (has_two_finger_emulation d).1 = Ok true.
Proof.
  cbv zeta.
  match goal with |- ?H ∧ _ => assert H as Hcaps by (vm_compute; reflexivity) end.
  split; [exact Hcaps|].
  exact (proj1 (has_two_finger_emulation_iff _ _ _ _ _ _ _ _ Hcaps)).
Defined.

(** C9: a descriptor of property type ["bool"] coerces every element of
    the fetched sequence to a boolean and then takes its slot, so at a
    slot holding the raw value [r] it returns the conversion of the truth
    value of [r]: true for every integer but zero, whatever its size. *)
Theorem get_bool_coerces (p : device_property) (d : InputDevice)
    (slots : list raw) (r : raw) :
  property_type p = "bool" →
  properties d !! property_name p = Some slots →
  (0 ≤ item p)%Z →
  slots !! Z.to_nat (item p) = Some r →
  (__get__ p d).1 =
    (v ← Py.getitem ((λ r, VBool (bool_ (decode r))) <$> slots) (item p);
     convert_from_property p v)
  ∧ (__get__ p d).1 = convert_from_property p (VBool (bool_ (decode r)))
  ∧ (∀ z, r = RInt z → z ≠ 0%Z → bool_ (decode r) = true)
  ∧ (r = RInt 0 → bool_ (decode r) = false).
Proof.
  intros Ht Hslots Hlo Hr. split; [|split; [|split]].
  - rewrite (get_run p d slots Hslots). unfold as_read. by rewrite Ht.
  - rewrite (get_in_range p d slots Hslots r Hlo Hr). unfold as_read.
    by rewrite Ht.
  - intros z -> Hz. simpl. by apply negb_true_iff, Z.eqb_neq.
  - by intros ->.
Qed.

Lemma get_bool_coerces_witness :
  let d := device_with "Synaptics Two-Finger Scrolling" [RInt 0; RInt 200] in
  properties d !! property_name horizontal_two_finger_scrolling
    = Some [RInt 0; RInt 200] ∧
  (__get__ horizontal_two_finger_scrolling d).1 = Ok (VBool true).
Proof.
  cbv zeta. split; [apply device_with_lookup|].
  refine (proj1 (proj2 (get_bool_coerces horizontal_two_finger_scrolling
    (device_with "Synaptics Two-Finger Scrolling" [RInt 0; RInt 200])
    [RInt 0; RInt 200] (RInt 200) _ _ _ _))).
  - reflexivity.
  - apply device_with_lookup.
  - simpl. lia.
  - reflexivity.
Defined.

(** ** Claims about construction and about reads *)

(** C8: [device_property.__init__] raises [ValueError] for a property
    type outside ["int"], ["byte"], ["float"], ["bool"] and returns a
    descriptor with the given fields and the default conversions for each
    of these four; it takes no device, and run against one it leaves the
    device, its request log included, as it was. *)
Theorem init_checks_property_type (name type : string) (i : Z)
    (d : InputDevice) :
  (type ∉ ["int"; "byte"; "float"; "bool"] →
     __init__ name type i = Raise ValueError)
  ∧ (type ∈ ["int"; "byte"; "float"; "bool"] →
     ∃ p, __init__ name type i = Ok p
          ∧ property_name p = name ∧ property_type p = type ∧ item p = i
          ∧ ∀ x, convert_from_property p x = Ok x
                 ∧ convert_to_property p x = Ok x)
  ∧ (lift (__init__ name type i) d).2 = d.
Proof.
  split; [|split; [|done]]; intros Ht; unfold __init__.
  - destruct (contains PROPERTY_TYPES type) eqn:Hc; [|done].
    by apply contains_elem_of in Hc.
  - apply (contains_elem_of PROPERTY_TYPES) in Ht as ->. simpl. eauto 10.
Qed.

Lemma init_checks_property_type_witness :
  ("string" ∉ ["int"; "byte"; "float"; "bool"]) ∧
  __init__ "Synaptics Off" "string" 0 = Raise ValueError.
Proof.
  assert ("string" ∉ ["int"; "byte"; "float"; "bool"]) as Hnot.
  { rewrite !not_elem_of_cons. repeat split; [discriminate..|].
    apply not_elem_of_nil. }
  split; [exact Hnot|].
  exact (proj1 (init_checks_property_type "Synaptics Off" "string" 0
                  (device_with "Synaptics Off" [])) Hnot).
Defined.

(** *** Reads only query the device *)

Section read_only.
Context {A B : Type}.

Lemma read_only_ret (a : A) : read_only (mret a : M A).
Proof. intros d. repeat split. exists []. simpl. by rewrite app_nil_r. Qed.

Lemma read_only_lift (r : result A) : read_only (lift r).
Proof. intros d. repeat split. exists []. simpl. by rewrite app_nil_r. Qed.

Lemma read_only_bind (m : M A) (k : A → M B) :
  read_only m → (∀ a, read_only (k a)) → read_only (m ≫= k).
Proof.
  intros Hm Hk d. unfold mbind, M_bind.
  destruct (Hm d) as (Hid & Hprops & names & Hreq).
  destruct (m d) as [[a|e] d']; simpl in *.
  - destruct (Hk a d') as (Hid' & Hprops' & names' & Hreq').
    split; [congruence|]. split; [congruence|].
    exists (names ++ names'). rewrite Hreq', Hreq, fmap_app.
    by rewrite app_assoc.
  - eauto.
Qed.
End read_only.

Lemma read_only_getitem (name : string) : read_only (X11.getitem name).
Proof.
  intros d. unfold X11.getitem.
  destruct (properties d !! name); simpl; repeat split; by exists [name].
Qed.

(** C10: reading through a descriptor, and reading any of the derived
    properties, changes no slot of any property of the device: the device
    has the properties it had, and the only requests made are queries. *)
Theorem reads_do_not_write :
  (∀ p, read_only (__get__ p))
  ∧ read_only coasting
  ∧ read_only capabilities
  ∧ read_only finger_detection
  ∧ read_only buttons
  ∧ read_only has_pressure_detection
  ∧ read_only has_finger_width_detection
  ∧ read_only has_two_finger_emulation.
Proof.
  assert (∀ p, read_only (__get__ p)) as Hget.
  { intros p. unfold __get__.
    apply read_only_bind; [apply read_only_getitem|]. intros values.
    apply read_only_bind; [apply read_only_lift|]. intros v.
    apply read_only_lift. }
  assert (read_only capabilities) as Hcaps.
  { apply read_only_bind; [apply read_only_getitem|]. intros values.
    apply read_only_ret. }
  split; [exact Hget|]. split.
  { apply read_only_bind; [apply Hget|]. intros speed. apply read_only_ret. }
  split; [exact Hcaps|].
  repeat split;
    (apply read_only_bind; [exact Hcaps|]; intros caps;
     first [apply read_only_ret | apply read_only_lift]).
Qed.

(** * Further properties of the module *)

(** ** Every way [__set__] can go *)

Lemma index_Ok_lt {A} (l : list A) (i : Z) (n : nat) :
  index l i = Ok n → n < length l.
Proof.
  unfold index.
  destruct ((0 <=? i) && (i <? Z.of_nat (length l)))%Z eqn:Hin.
  - intros [= <-]. apply andb_true_iff in Hin as [? ?]. lia.
  - destruct ((i <? 0) && (0 <=? i + Z.of_nat (length l)))%Z eqn:Hneg;
      [|done].
    intros [= <-]. apply andb_true_iff in Hneg as [? ?]. lia.
Qed.

Lemma setter_name_eqb (t u : string) :
  String.eqb ("set_" ++ t)%string ("set_" ++ u)%string = String.eqb t u.
Proof. reflexivity. Qed.

Lemma setter_name_is_ascii (t : string) :
  is_ascii ("set_" ++ t) = is_ascii t.
Proof. reflexivity. Qed.

(** Only the four setters answer to a name of the form [set_<type>]. *)
Lemma getattr_setter_inv (t : string) f :
  getattr ("set_" ++ t) = Ok f →
  contains PROPERTY_TYPES t = true ∧ f = set_raw t.
Proof.
  unfold getattr. destruct (is_ascii _); [|done]. cbn [negb].
  change "set_int" with ("set_" ++ "int")%string.
  change "set_byte" with ("set_" ++ "byte")%string.
  change "set_float" with ("set_" ++ "float")%string.
  change "set_bool" with ("set_" ++ "bool")%string.
  rewrite !setter_name_eqb.
  destruct (String.eqb_spec t "int") as [-> | _]; [by intros [= <-]|].
  destruct (String.eqb_spec t "byte") as [-> | _]; [by intros [= <-]|].
  destruct (String.eqb_spec t "float") as [-> | _]; [by intros [= <-]|].
  destruct (String.eqb_spec t "bool") as [-> | _]; [by intros [= <-]|].
  done.
Qed.

Lemma getattr_setter_missing (t : string) :
  contains PROPERTY_TYPES t = false →
  getattr ("set_" ++ t)
  = Raise (if is_ascii t then AttributeError else UnicodeEncodeError).
Proof.
  intros Ht. destruct (getattr ("set_" ++ t)) as [f|e] eqn:Hf.
  - apply getattr_setter_inv in Hf as [Hin _]. congruence.
  - revert Hf. unfold getattr. rewrite setter_name_is_ascii.
    destruct (is_ascii t); [|done]. cbn [negb].
    by repeat destruct (String.eqb _ _).
Qed.

Lemma index_fmap {A B} (f : A → B) (l : list A) (i : Z) :
  index (f <$> l) i = index l i.
Proof. unfold index. by rewrite length_fmap. Qed.

Lemma index_cases {A} (l : list A) (i : Z) :
  index l i = Raise IndexError ∨ ∃ n, index l i = Ok n.
Proof.
  unfold index. repeat destruct (_ && _)%Z; eauto.
Qed.

Lemma set_outcomes (p : device_property) (v : value) (d : InputDevice) :
  set_outcome p v d (__set__ p v d).1 (__set__ p v d).2.
Proof.
  unfold __set__, mbind, M_bind, X11.getitem, lift.
  destruct (properties d !! property_name p) as [slots|] eqn:Hslots;
    [|by constructor].
  destruct (convert_to_property p v) as [w|e] eqn:Hv;
    [|by econstructor].
  unfold setitem. rewrite index_fmap.
  destruct (index_cases slots (item p)) as [Hi | [n Hi]]; rewrite Hi; simpl.
  { by eapply set_out_of_range. }
  destruct (contains PROPERTY_TYPES (property_type p)) eqn:Ht.
  - rewrite (getattr_setter _ Ht). unfold set_raw. simpl.
    rewrite list_fmap_insert, fmap_encode_decode, <- app_assoc. simpl.
    eapply set_written; eauto using index_Ok_lt.
  - rewrite (getattr_setter_missing _ Ht). simpl.
    by eapply set_no_setter.
Qed.

Ltac set_cases p v d :=
  let Hout := fresh "Hout" in
  pose proof (set_outcomes p v d) as Hout;
  destruct (__set__ p v d) as [? ?]; cbn [fst snd] in *;
  inversion Hout; subst; clear Hout.

Lemma index_Ok_iff {A} (l : list A) (i : Z) :
  (∃ n, index l i = Ok n)
  ↔ (- Z.of_nat (length l) ≤ i < Z.of_nat (length l))%Z.
Proof.
  unfold index.
  destruct ((0 <=? i) && (i <? Z.of_nat (length l)))%Z eqn:Hin.
  { apply andb_true_iff in Hin as [? ?]. split; [lia|eauto]. }
  destruct ((i <? 0) && (0 <=? i + Z.of_nat (length l)))%Z eqn:Hneg.
  { apply andb_true_iff in Hneg as [? ?]. split; [lia|eauto]. }
  apply andb_false_iff in Hin, Hneg. split; [by intros [n ?]|lia].
Qed.

(** X1: a [__set__] that raises has written nothing: the properties of
    the device are what they were, and the one request made is the query
    for the sequence. *)
Theorem set_raises_without_writing (p : device_property) (v : value)
    (d : InputDevice) (e : exn) :
  (__set__ p v d).1 = Raise e →
  properties (__set__ p v d).2 = properties d
  ∧ requests (__set__ p v d).2
    = requests d ++ [GetProperty (property_name p)].
Proof. intros Hraise. set_cases p v d; done. Qed.

Lemma set_raises_without_writing_witness :
  let d := device_with "Synaptics Off" [] in
  (__set__ off (VInt 1) d).1 = Raise IndexError ∧
  properties (__set__ off (VInt 1) d).2 = properties d.
Proof.
  cbv zeta.
  match goal with |- ?H ∧ _ => assert H as Hraise by (vm_compute; reflexivity) end.
  split; [exact Hraise|].
  exact (proj1 (set_raises_without_writing _ _ _ _ Hraise)).
Defined.

(** X2: [__set__] returns exactly when the device defines the property,
    the conversion accepts the value, the slot index lies within
    [-len .. len - 1] of the reported sequence and the property type is
    one of the four that have a setter. *)
Theorem set_returns_iff (p : device_property) (v : value) (d : InputDevice) :
  (__set__ p v d).1 = Ok ()
  ↔ ∃ slots w,
      properties d !! property_name p = Some slots
      ∧ convert_to_property p v = Ok w
      ∧ (- Z.of_nat (length slots) ≤ item p < Z.of_nat (length slots))%Z
      ∧ contains PROPERTY_TYPES (property_type p) = true.
Proof.
  split.
  - intros Hok. set_cases p v d; try done.
    eexists _, _. repeat split; try done; apply index_Ok_iff; eauto.
  - intros (slots & w & Hslots & Hv & Hi & Ht).
    apply index_Ok_iff in Hi as [n Hi].
    set_cases p v d; congruence.
Qed.

(** X3: whatever its outcome, [__set__] neither defines nor removes a
    property of the device, and it never changes the length of a
    sequence. *)
Theorem set_preserves_shape (p : device_property) (v : value)
    (d : InputDevice) (name : string) :
  length <$> (properties (__set__ p v d).2 !! name)
  = length <$> (properties d !! name).
Proof.
  set_cases p v d; try done. cbn [properties].
  destruct (decide (property_name p = name)) as [<- | Hne].
  - rewrite lookup_insert_eq. simpl.
    match goal with H : properties d !! _ = Some _ |- _ => rewrite H end.
    simpl. by rewrite length_insert.
  - by rewrite lookup_insert_ne.
Qed.

Lemma set_written_run (p : device_property) (v w : value) (d : InputDevice)
    (slots : list raw) (n : nat) :
  properties d !! property_name p = Some slots →
  convert_to_property p v = Ok w →
  index slots (item p) = Ok n →
  contains PROPERTY_TYPES (property_type p) = true →
  __set__ p v d =
    (Ok (),
     {| device_id := device_id d;
        properties :=
          <[property_name p := <[n := encode w]> slots]> (properties d);
        requests :=
          requests d ++
            [GetProperty (property_name p);
             SetProperty (property_type p) (property_name p)
               (<[n := w]> (decode <$> slots))] |}).
Proof.
  intros Hslots Hv Hi Ht.
  pose proof (set_outcomes p v d) as Hout.
  destruct (__set__ p v d) as [r d']. cbn [fst snd] in Hout.
  inversion Hout; subst; congruence.
Qed.

Lemma set_Ok_inv (p : device_property) (v : value) (d : InputDevice) :
  (__set__ p v d).1 = Ok () →
  ∃ slots w n,
    properties d !! property_name p = Some slots
    ∧ convert_to_property p v = Ok w
    ∧ index slots (item p) = Ok n
    ∧ contains PROPERTY_TYPES (property_type p) = true.
Proof. intros Hok. set_cases p v d; try done. eauto 10. Qed.

(** ** Every way [__get__] can go *)

Lemma get_undefined (p : device_property) (d : InputDevice) :
  properties d !! property_name p = None →
  __get__ p d = (Raise KeyError, sent (GetProperty (property_name p)) d).
Proof.
  intros Hnone. unfold __get__, mbind, M_bind, X11.getitem. by rewrite Hnone.
Qed.

Lemma get_at (p : device_property) (d : InputDevice) (slots : list raw)
    (n : nat) (r : raw) :
  properties d !! property_name p = Some slots →
  index slots (item p) = Ok n →
  slots !! n = Some r →
  (__get__ p d).1 = convert_from_property p (as_read (property_type p) r).
Proof.
  intros Hslots Hi Hr. rewrite (get_run p d slots Hslots). simpl.
  unfold Py.getitem. rewrite index_fmap, Hi. simpl.
  by rewrite list_lookup_fmap, Hr.
Qed.

Lemma get_Ok_inv (p : device_property) (d : InputDevice) (v : value) :
  (__get__ p d).1 = Ok v →
  ∃ slots n r,
    properties d !! property_name p = Some slots
    ∧ index slots (item p) = Ok n
    ∧ slots !! n = Some r
    ∧ convert_from_property p (as_read (property_type p) r) = Ok v.
Proof.
  destruct (properties d !! property_name p) as [slots|] eqn:Hslots;
    [|by rewrite get_undefined].
  rewrite (get_run p d slots Hslots). simpl.
  unfold Py.getitem. rewrite index_fmap.
  destruct (index_cases slots (item p)) as [Hi | [n Hi]]; rewrite Hi;
    [done|]. simpl.
  destruct (lookup_lt_is_Some_2 slots n (index_Ok_lt _ _ _ Hi)) as [r Hr].
  rewrite list_lookup_fmap, Hr. simpl. eauto 10.
Qed.

Lemma get_depends_on_slots (q : device_property) (d d' : InputDevice) :
  properties d !! property_name q = properties d' !! property_name q →
  (__get__ q d).1 = (__get__ q d').1.
Proof.
  intros Heq.
  destruct (properties d' !! property_name q) as [slots|] eqn:Hslots.
  - by rewrite (get_run q d slots Heq), (get_run q d' slots Hslots).
  - by rewrite (get_undefined q d Heq), (get_undefined q d' Hslots).
Qed.

Lemma get_requests (p : device_property) (d : InputDevice) :
  (__get__ p d).2 = sent (GetProperty (property_name p)) d.
Proof.
  destruct (properties d !! property_name p) as [slots|] eqn:Hslots.
  - by rewrite (get_run p d slots Hslots).
  - by rewrite (get_undefined p d Hslots).
Qed.

(** X4: [__set__] on one property leaves every other property of the
    device as it was, so a descriptor over another property reads
    afterwards what it read before, whatever the outcome of the set. *)
Theorem set_frames_other_properties (p q : device_property) (v : value)
    (d : InputDevice) :
  property_name q ≠ property_name p →
  properties (__set__ p v d).2 !! property_name q
  = properties d !! property_name q
  ∧ (__get__ q (__set__ p v d).2).1 = (__get__ q d).1.
Proof.
  intros Hne.
  assert (properties (__set__ p v d).2 !! property_name q
          = properties d !! property_name q) as Hsame.
  { set_cases p v d; try done. cbn [properties]. by rewrite lookup_insert_ne. }
  split; [done|]. by apply get_depends_on_slots.
Qed.

Lemma set_frames_other_properties_witness :
  let d := {| device_id := 3;
              properties := {[ "Synaptics Off" := [RInt 0];
                               "Synaptics Coasting Speed" := [RFloat 0.5] ]};
              requests := [] |} in
  property_name coasting_speed ≠ property_name off ∧
  (__get__ coasting_speed (__set__ off (VInt 1) d).2).1
  = (__get__ coasting_speed d).1.
Proof.
  cbv zeta.
  assert (property_name coasting_speed ≠ property_name off) as Hne
    by discriminate.
  split; [exact Hne|].
  exact (proj2 (set_frames_other_properties off coasting_speed _ _ Hne)).
Defined.

(** X5: every [__get__] sends exactly one query for its property,
    whether it returns or raises, and keeps nothing: a second [__get__]
    right after the first gives the same result. *)
Theorem get_queries_once (p : device_property) (d : InputDevice) :
  requests (__get__ p d).2 = requests d ++ [GetProperty (property_name p)]
  ∧ (__get__ p (__get__ p d).2).1 = (__get__ p d).1.
Proof.
  rewrite get_requests. split; [done|]. by apply get_depends_on_slots.
Qed.

(** ** How writes compose *)

Lemma index_insert {A} (l : list A) (n : nat) (x : A) (i : Z) :
  index (<[n := x]> l) i = index l i.
Proof. unfold index. by rewrite length_insert. Qed.

Lemma index_nonneg_Ok {A} (l : list A) (i : Z) (n : nat) :
  (0 ≤ i)%Z → index l i = Ok n → n = Z.to_nat i.
Proof.
  intros Hi. unfold index.
  destruct ((0 <=? i) && (i <? Z.of_nat (length l)))%Z; [by intros [= <-]|].
  replace (i <? 0)%Z with false by (symmetry; apply Z.ltb_ge; lia). done.
Qed.

(** X6: the last write wins: two [__set__] in a row through one
    descriptor leave the device with the properties the second alone
    would have left. *)
Theorem set_last_write_wins (p : device_property) (v1 v2 : value)
    (d : InputDevice) :
  (__set__ p v1 d).1 = Ok () →
  (__set__ p v2 d).1 = Ok () →
  (__set__ p v2 (__set__ p v1 d).2).1 = Ok ()
  ∧ properties (__set__ p v2 (__set__ p v1 d).2).2
    = properties (__set__ p v2 d).2.
Proof.
  intros (slots & w1 & n & Hslots & Hv1 & Hi & Ht)%set_Ok_inv
         (slots' & w2 & n' & Hslots' & Hv2 & Hi' & _)%set_Ok_inv.
  simplify_eq.
  rewrite (set_written_run p v1 w1 d slots n), (set_written_run p v2 w2 d slots n)
    by done.
  cbn [snd].
  erewrite (set_written_run p v2 w2 _ (<[n := encode w1]> slots) n);
    [|apply lookup_insert_eq|done|by rewrite index_insert|done].
  cbn [fst snd properties]. split; [done|].
  by rewrite insert_insert_eq, list_insert_insert_eq.
Qed.

Lemma set_last_write_wins_witness :
  let d := device_with "Synaptics Move Speed"
             [RFloat 0.5; RFloat 1; RFloat 2] in
  (__set__ maximum_speed (VFloat 4) d).1 = Ok () ∧
  (__set__ maximum_speed (VFloat 3) d).1 = Ok () ∧
  properties (__set__ maximum_speed (VFloat 3)
                (__set__ maximum_speed (VFloat 4) d).2).2
  = properties (__set__ maximum_speed (VFloat 3) d).2.
Proof.
  cbv zeta.
  assert ((__set__ maximum_speed (VFloat 4)
             (device_with "Synaptics Move Speed"
                [RFloat 0.5; RFloat 1; RFloat 2])).1 = Ok ()) as H1
    by (vm_compute; reflexivity).
  assert ((__set__ maximum_speed (VFloat 3)
             (device_with "Synaptics Move Speed"
                [RFloat 0.5; RFloat 1; RFloat 2])).1 = Ok ()) as H2
    by (vm_compute; reflexivity).
  split; [exact H1|]. split; [exact H2|].
  exact (proj2 (set_last_write_wins _ _ _ _ H1 H2)).
Defined.

(** X7: writes through two descriptors that do not share a slot, either
    because their properties differ or because their slot indices do,
    commute: the device ends with the same properties in either order. *)
Theorem sets_commute (p q : device_property) (v u : value)
    (d : InputDevice) :
  (__set__ p v d).1 = Ok () →
  (__set__ q u d).1 = Ok () →
  property_name p ≠ property_name q
  ∨ ((0 ≤ item p)%Z ∧ (0 ≤ item q)%Z ∧ item p ≠ item q) →
  (__set__ q u (__set__ p v d).2).1 = Ok ()
  ∧ (__set__ p v (__set__ q u d).2).1 = Ok ()
  ∧ properties (__set__ q u (__set__ p v d).2).2
    = properties (__set__ p v (__set__ q u d).2).2.
Proof.
  intros (sp & wp & n & Hsp & Hvp & Hip & Htp)%set_Ok_inv
         (sq & wq & m & Hsq & Hvq & Hiq & Htq)%set_Ok_inv Hapart.
  rewrite (set_written_run p v wp d sp n), (set_written_run q u wq d sq m)
    by done.
  cbn [snd].
  destruct (decide (property_name p = property_name q)) as [Heq | Hne].
  - destruct Hapart as [? | (Hp & Hq & Hpq)]; [done|].
    assert (sq = sp) as -> by (rewrite Heq in Hsp; congruence).
    assert (n ≠ m) as Hnm.
    { rewrite (index_nonneg_Ok _ _ _ Hp Hip), (index_nonneg_Ok _ _ _ Hq Hiq).
      lia. }
    erewrite (set_written_run q u wq _ (<[n := encode wp]> sp) m);
      [|rewrite Heq; apply lookup_insert_eq|done
       |by rewrite index_insert|done].
    erewrite (set_written_run p v wp _ (<[m := encode wq]> sp) n);
      [|rewrite Heq; apply lookup_insert_eq|done
       |by rewrite index_insert|done].
    cbn [fst snd properties]. split; [done|]. split; [done|].
    rewrite Heq, !insert_insert_eq. f_equal.
    by apply list_insert_insert_ne.
  - erewrite (set_written_run q u wq _ sq m);
      [|cbn [properties]; by rewrite lookup_insert_ne|done..].
    erewrite (set_written_run p v wp _ sp n);
      [|cbn [properties]; by rewrite lookup_insert_ne|done..].
    cbn [fst snd properties]. split; [done|]. split; [done|].
    by apply insert_insert_ne.
Qed.

Lemma sets_commute_witness :
  let d := device_with "Synaptics Edge Scrolling" [RInt 0; RInt 0; RInt 0] in
  (__set__ vertical_edge_scrolling (VBool true) d).1 = Ok () ∧
  (__set__ corner_coasting (VBool true) d).1 = Ok () ∧
  properties (__set__ corner_coasting (VBool true)
                (__set__ vertical_edge_scrolling (VBool true) d).2).2
  = properties (__set__ vertical_edge_scrolling (VBool true)
                  (__set__ corner_coasting (VBool true) d).2).2.
Proof.
  cbv zeta.
  assert ((__set__ vertical_edge_scrolling (VBool true)
             (device_with "Synaptics Edge Scrolling"
                [RInt 0; RInt 0; RInt 0])).1 = Ok ()) as H1
    by (vm_compute; reflexivity).
  assert ((__set__ corner_coasting (VBool true)
             (device_with "Synaptics Edge Scrolling"
                [RInt 0; RInt 0; RInt 0])).1 = Ok ()) as H2
    by (vm_compute; reflexivity).
  split; [exact H1|]. split; [exact H2|].
  refine (proj2 (proj2 (sets_commute _ _ _ _ _ H1 H2 _))).
  right. simpl. lia.
Defined.

(** ** Reading and writing together *)

Lemma bool_encode (v : value) : bool_ (decode (encode v)) = bool_ v.
Proof. by destruct v as [z|f|[]]. Qed.

(** X8: for a descriptor with the default conversions whose property
    type is one of ["int"], ["byte"], ["float"], writing back the value
    just read succeeds and leaves every property of the device as it
    was. *)
Theorem write_back_restores (p : device_property) (d : InputDevice)
    (v : value) :
  (∀ x, convert_from_property p x = Ok x) →
  (∀ x, convert_to_property p x = Ok x) →
  contains PROPERTY_TYPES (property_type p) = true →
  property_type p ≠ "bool" →
  (__get__ p d).1 = Ok v →
  (__set__ p v d).1 = Ok () ∧ properties (__set__ p v d).2 = properties d.
Proof.
  intros Hfrom Hto Ht Hbool (slots & n & r & Hslots & Hi & Hr & Hv)%get_Ok_inv.
  rewrite Hfrom in Hv. injection Hv as <-.
  rewrite (set_written_run p _ _ d slots n Hslots (Hto _) Hi Ht).
  cbn [fst snd properties]. split; [done|].
  unfold as_read. apply String.eqb_neq in Hbool as ->.
  rewrite encode_decode, (list_insert_id _ _ _ Hr).
  by apply insert_id.
Qed.

Lemma write_back_restores_witness :
  let d := device_with "Synaptics Tap Action"
             [RInt 0; RInt 3; RInt 0; RInt 2; RInt 1; RInt 3; RInt 2] in
  (__get__ lb_tap_action d).1 = Ok (VInt 2) ∧
  properties (__set__ lb_tap_action (VInt 2) d).2 = properties d.
Proof.
  cbv zeta.
  match goal with |- ?H ∧ _ => assert H as Hget by (vm_compute; reflexivity) end.
  split; [exact Hget|].
  refine (proj2 (write_back_restores lb_tap_action _ _ _ _ _ _ Hget));
    [done|done|reflexivity|discriminate].
Defined.

(** X9: a descriptor of the class with property type ["bool"] returns a
    Python boolean whenever it returns, whatever raw values the device
    holds. *)
Theorem bool_descriptors_return_bool (p : device_property)
    (d : InputDevice) (v : value) :
  p ∈ descriptors →
  property_type p = "bool" →
  (__get__ p d).1 = Ok v →
  ∃ b, v = VBool b.
Proof.
  unfold descriptors. rewrite !elem_of_cons, elem_of_nil.
  intros H Ht (slots & n & r & _ & _ & _ & Hv)%get_Ok_inv.
  unfold as_read in Hv. rewrite Ht in Hv. simpl in Hv.
  repeat (destruct H as [-> | H];
          [first [discriminate Ht | injection Hv as <-; eauto]|]).
  done.
Qed.

Lemma bool_descriptors_return_bool_witness :
  let d := device_with "Synaptics Gestures" [RInt 7] in
  tap_and_drag_gesture ∈ descriptors ∧
  (__get__ tap_and_drag_gesture d).1 = Ok (VBool true) ∧
  ∃ b, VBool true = VBool b.
Proof.
  cbv zeta.
  assert (tap_and_drag_gesture ∈ descriptors) as Hp.
  { unfold descriptors. rewrite !elem_of_cons. tauto. }
  assert ((__get__ tap_and_drag_gesture
             (device_with "Synaptics Gestures" [RInt 7])).1
          = Ok (VBool true)) as Hget by (vm_compute; reflexivity).
  split; [exact Hp|]. split; [exact Hget|].
  exact (bool_descriptors_return_bool _ _ _ Hp eq_refl Hget).
Defined.

Lemma coasting_run (d : InputDevice) :
  (coasting d).1 = (speed ← (__get__ coasting_speed d).1; Ok (ne_zero speed)).
Proof.
  unfold coasting, mbind at 1. unfold M_bind.
  by destruct (__get__ coasting_speed d) as [[speed|e] d'].
Qed.

(** X10: after [coasting_speed] has been set to [v], [coasting] is the
    truth value of [v]: false after a zero (of either sign), true after
    any other number. *)
Theorem coasting_follows_speed (v : value) (d : InputDevice) :
  (__set__ coasting_speed v d).1 = Ok () →
  (coasting (__set__ coasting_speed v d).2).1 = Ok (bool_ v).
Proof.
  intros (slots & w & n & Hslots & Hv & Hi & Ht)%set_Ok_inv.
  injection Hv as <-.
  rewrite (set_written_run coasting_speed v v d slots n) by done.
  cbn [snd]. rewrite coasting_run.
  erewrite (get_at coasting_speed _ (<[n := encode v]> slots) n (encode v));
    [|apply lookup_insert_eq|by rewrite index_insert
     |apply list_lookup_insert_eq; by eapply index_Ok_lt].
  simpl. unfold ne_zero. by rewrite bool_encode.
Qed.

Lemma coasting_follows_speed_witness :
  let d := device_with "Synaptics Coasting Speed" [RFloat 0.5] in
  (__set__ coasting_speed (VFloat 0) d).1 = Ok () ∧
  (coasting (__set__ coasting_speed (VFloat 0) d).2).1 = Ok false.
Proof.
  cbv zeta.
  match goal with |- ?H ∧ _ => assert H as Hset by (vm_compute; reflexivity) end.
  split; [exact Hset|].
  exact (coasting_follows_speed _ _ Hset).
Defined.

(** X11: the check in the constructor is what keeps the lookup of the
    setter from failing: [__set__] through a descriptor that [__init__]
    returned raises neither [AttributeError] nor [UnicodeEncodeError],
    while through a descriptor whose property type is none of the four it
    raises, whenever the conversion and the slot are fine,
    [AttributeError] for an ASCII property type and [UnicodeEncodeError]
    for any other, and writes nothing. *)
Theorem setter_exists_iff_constructed (p : device_property) (v : value)
    (d : InputDevice) :
  (∀ name type i, __init__ name type i = Ok p →
     (__set__ p v d).1 ≠ Raise AttributeError
     ∧ (__set__ p v d).1 ≠ Raise UnicodeEncodeError)
  ∧ (contains PROPERTY_TYPES (property_type p) = false →
     ∀ slots w,
       properties d !! property_name p = Some slots →
       convert_to_property p v = Ok w →
       (- Z.of_nat (length slots) ≤ item p < Z.of_nat (length slots))%Z →
       (__set__ p v d).1
       = Raise (if is_ascii (property_type p) then AttributeError
                else UnicodeEncodeError)
       ∧ properties (__set__ p v d).2 = properties d).
Proof.
  split.
  - intros name type i. unfold __init__.
    destruct (contains PROPERTY_TYPES type) eqn:Ht; [|done].
    intros [= <-].
    match goal with |- context [__set__ ?q v d] => set_cases q v d end;
      cbn [property_type convert_to_property] in *;
      split; congruence.
  - intros Ht slots w Hslots Hv [n Hi]%index_Ok_iff.
    set_cases p v d; try congruence. done.
Qed.

Lemma setter_exists_iff_constructed_witness :
  __init__ "Synaptics Off" "byte" 0 = Ok off ∧
  (__set__ off (VInt 1) (device_with "Synaptics Off" [RInt 0])).1
  ≠ Raise AttributeError.
Proof.
  split; [vm_compute; reflexivity|].
  exact (proj1 (proj1 (setter_exists_iff_constructed off (VInt 1)
                         (device_with "Synaptics Off" [RInt 0]))
                  "Synaptics Off" "byte" 0%Z eq_refl)).
Defined.

(** ** The capability views on sequences of any length *)

Lemma getitem_nonneg_Ok {A} (l : list A) (i : Z) (x : A) :
  (0 ≤ i)%Z → Py.getitem l i = Ok x → l !! Z.to_nat i = Some x.
Proof.
  intros Hi. unfold Py.getitem.
  destruct (index_cases l i) as [Hraise | [n Hn]]; [by rewrite Hraise|].
  rewrite Hn. simpl. rewrite (index_nonneg_Ok l i n Hi Hn).
  destruct (l !! Z.to_nat i); [by intros [= ->]|done].
Qed.

Lemma view_run {A} (k : list bool → M A) (d : InputDevice) :
  ((capabilities ≫= k) d).1 =
    match (capabilities d).1 with
    | Ok caps => (k caps (capabilities d).2).1
    | Raise e => Raise e
    end.
Proof.
  unfold mbind at 1. unfold M_bind.
  by destruct (capabilities d) as [[caps|e] d'].
Qed.

(** X12: whenever the capabilities can be read, whatever their number,
    [finger_detection] returns a count between 1 and 3, and it is 1 when
    the device reports no more than three capabilities. *)
Theorem finger_detection_range (d : InputDevice) (caps : list bool) :
  (capabilities d).1 = Ok caps →
  ∃ n, (finger_detection d).1 = Ok n
       ∧ (1 ≤ n ≤ 3)%Z
       ∧ (length caps ≤ 3 → n = 1%Z).
Proof.
  intros Hcaps. unfold finger_detection.
  rewrite (capabilities_bind _ d _ Hcaps). eexists. split; [done|].
  destruct caps as [|c0 [|c1 [|c2 [|c3 [|c4 rest]]]]]; simpl;
    try (split; [lia|done]).
  - destruct c3; simpl; split; lia.
  - destruct c3, c4; simpl; split; lia.
Qed.

Lemma finger_detection_range_witness :
  let d := device_with "Synaptics Capabilities" [RInt 1; RInt 1] in
  (capabilities d).1 = Ok [true; true] ∧
  ∃ n, (finger_detection d).1 = Ok n ∧ (1 ≤ n ≤ 3)%Z.
Proof.
  cbv zeta.
  match goal with |- ?H ∧ _ => assert H as Hcaps by (vm_compute; reflexivity) end.
  split; [exact Hcaps|].
  destruct (finger_detection_range _ _ Hcaps) as (n & Hn & Hrange & _).
  exists n. split; [exact Hn|exact Hrange].
Defined.

(** X13: on a device that reports five capabilities or fewer,
    [has_two_finger_emulation] does not raise but answers [True] (the
    slice it tests is empty), while [has_pressure_detection] and
    [has_finger_width_detection] raise [IndexError]. *)
Theorem has_two_finger_emulation_short (d : InputDevice) (caps : list bool) :
  (capabilities d).1 = Ok caps →
  length caps ≤ 5 →
  (has_two_finger_emulation d).1 = Ok true
  ∧ (has_pressure_detection d).1 = Raise IndexError
  ∧ (has_finger_width_detection d).1 = Raise IndexError.
Proof.
  intros Hcaps Hlen.
  unfold has_two_finger_emulation, has_pressure_detection,
    has_finger_width_detection.
  rewrite !(capabilities_bind _ d _ Hcaps). simpl.
  split; [|split].
  - unfold slice. by rewrite drop_ge.
  - apply getitem_past_end. lia.
  - apply getitem_past_end. lia.
Qed.

Lemma has_two_finger_emulation_short_witness :
  let d := device_with "Synaptics Capabilities"
             [RInt 1; RInt 1; RInt 1; RInt 0; RInt 0] in
  (capabilities d).1 = Ok [true; true; true; false; false] ∧
  (has_two_finger_emulation d).1 = Ok true ∧
  (has_pressure_detection d).1 = Raise IndexError.
Proof.
  cbv zeta.
  match goal with |- ?H ∧ _ => assert H as Hcaps by (vm_compute; reflexivity) end.
  split; [exact Hcaps|].
  destruct (has_two_finger_emulation_short _ _ Hcaps) as (He & Hp & _).
  - simpl. lia.
  - split; [exact He|exact Hp].
Defined.

(** X14: whenever [has_pressure_detection] and
    [has_finger_width_detection] both return, [has_two_finger_emulation]
    is their conjunction, however many capabilities the device reports. *)
Theorem two_finger_emulation_is_pressure_and_width (d : InputDevice)
    (a b : bool) :
  (has_pressure_detection d).1 = Ok a →
  (has_finger_width_detection d).1 = Ok b →
  (has_two_finger_emulation d).1 = Ok (a && b).
Proof.
  unfold has_pressure_detection, has_finger_width_detection,
    has_two_finger_emulation.
  rewrite !view_run.
  destruct (capabilities d).1 as [caps|e]; [|done]. simpl.
  intros Ha%getitem_nonneg_Ok Hb%getitem_nonneg_Ok; [|lia..].
  destruct caps as [|c0 [|c1 [|c2 [|c3 [|c4 [|c5 [|c6 rest]]]]]]];
    try done.
  simpl in Ha, Hb. injection Ha as <-. injection Hb as <-.
  unfold all, slice. simpl. by rewrite andb_true_r.
Qed.

Lemma two_finger_emulation_is_pressure_and_width_witness :
  let d := device_with "Synaptics Capabilities"
             [RInt 1; RInt 1; RInt 1; RInt 0; RInt 0; RInt 1; RInt 0;
              RInt 1] in
  (has_pressure_detection d).1 = Ok true ∧
  (has_finger_width_detection d).1 = Ok false ∧
  (has_two_finger_emulation d).1 = Ok false.
Proof.
  cbv zeta.
  match goal with |- ?H ∧ _ => assert H as Ha by (vm_compute; reflexivity) end.
  split; [exact Ha|].
  match goal with |- ?H ∧ _ => assert H as Hb by (vm_compute; reflexivity) end.
  split; [exact Hb|].
  exact (two_finger_emulation_is_pressure_and_width _ _ _ Ha Hb).
Defined.

(** X15: when the capabilities can be read, [buttons] raises [TypeError]
    exactly when there are fewer than three of them, and otherwise it is
    made of the first three, in the order left, middle, right. *)
Theorem buttons_arity (d : InputDevice) (caps : list bool) :
  (capabilities d).1 = Ok caps →
  ((buttons d).1 = Raise TypeError ↔ length caps < 3)
  ∧ (∀ c0 c1 c2 rest, caps = c0 :: c1 :: c2 :: rest →
       (buttons d).1 = Ok {| left := c0; middle := c1; right := c2 |}).
Proof.
  intros Hcaps. unfold buttons.
  rewrite (capabilities_bind _ d _ Hcaps). unfold lift, slice. cbn [fst].
  destruct caps as [|c0 [|c1 [|c2 rest]]]; simpl.
  1-3: split; [split; [intros _; lia|done]|intros; discriminate].
  split; [split; [done|lia]|].
  by intros ? ? ? ? [= <- <- <- <-].
Qed.

Lemma buttons_arity_witness :
  let d := device_with "Synaptics Capabilities" [RInt 1; RInt 0] in
  (capabilities d).1 = Ok [true; false] ∧
  (buttons d).1 = Raise TypeError.
Proof.
  cbv zeta.
  match goal with |- ?H ∧ _ => assert H as Hcaps by (vm_compute; reflexivity) end.
  split; [exact Hcaps|].
  apply (proj1 (buttons_arity _ _ Hcaps)). simpl. lia.
Defined.

(** ** Discovery and the catalogue of descriptors *)

(** X16: [find_first] raises exactly the error [find_all] raised, or
    [NoTouchpadError] when [find_all] yielded nothing, and nothing else;
    and what it returns is always the first device [find_all] yields. *)
Theorem find_first_outcomes (display : Display) :
  (∀ e, find_first display = Raise e
        ↔ find_all display = Raise e
          ∨ (find_all display = Ok [] ∧ e = NoTouchpadError))
  ∧ (∀ touchpad, find_first display = Ok touchpad
                 ↔ ∃ rest, find_all display = Ok (touchpad :: rest)).
Proof.
  unfold find_first.
  destruct (find_all display) as [[|t rest]|e']; simpl; split.
  - intros e. split; [intros [= <-]; by right|]. by intros [? | [_ ->]].
  - intros t. split; [done|by intros [rest ?]].
  - intros e. split; [done|]. by intros [? | [? _]].
  - intros t'. split; [intros [= <-]; eauto|]. by intros [rest' [= <- _]].
  - intros e. split; [intros [= <-]; by left|]. by intros [[= <-] | [? _]].
  - intros t. split; [done|by intros [rest ?]].
Qed.

(** X17: no two descriptors of the class name the same slot of the same
    property, and descriptors over one property agree on its property
    type, so they write it through the same setter. *)
Theorem descriptors_distinct_slots :
  NoDup ((λ p, (property_name p, item p)) <$> descriptors)
  ∧ (∀ p q, p ∈ descriptors → q ∈ descriptors →
       property_name p = property_name q →
       property_type p = property_type q).
Proof.
  split.
  - apply (bool_decide_unpack _). vm_compute. reflexivity.
  - assert (Forall (λ p, Forall (λ q,
        property_name p = property_name q →
        property_type p = property_type q) descriptors) descriptors) as H.
    { apply (bool_decide_unpack _). vm_compute. reflexivity. }
    intros p q Hp Hq. rewrite Forall_forall in H.
    specialize (H p Hp). rewrite Forall_forall in H. by apply H.
Qed.

(** ** The types the two converting descriptors produce *)

Lemma truediv_returns_float (a b v : value) :
  truediv a b = Ok v → ∃ f, v = VFloat f.
Proof.
  unfold truediv, mbind, result_bind.
  destruct (as_int a), (as_int b);
    repeat match goal with
      | |- context [match ?r with Ok _ => _ | Raise _ => _ end] =>
          destruct r
      | |- context [if ?c then _ else _] => destruct c
      end;
    intros [= <-]; eauto.
Qed.

Lemma int_returns_int (v w : value) : int_ v = Ok w → ∃ z, w = VInt z.
Proof.
  destruct v as [z|f|b]; simpl; [by intros [= <-]; eauto| |by intros [= <-]; eauto].
  destruct (Prim2SF f); intros [= <-]; eauto.
Qed.

(** X18: [locked_drags_timeout] and [circular_scrolling_distance] read
    as floats whenever they return, whatever the slot holds, and whatever
    [locked_drags_timeout] writes to its slot is an integer. *)
Theorem converting_descriptors_types (d : InputDevice) (v : value) :
  ((__get__ locked_drags_timeout d).1 = Ok v → ∃ f, v = VFloat f)
  ∧ ((__get__ circular_scrolling_distance d).1 = Ok v → ∃ f, v = VFloat f)
  ∧ ((__set__ locked_drags_timeout v d).1 = Ok () →
     ∃ slots n z,
       properties (__set__ locked_drags_timeout v d).2
         !! "Synaptics Locked Drags Timeout" = Some slots
       ∧ index slots (item locked_drags_timeout) = Ok n
       ∧ slots !! n = Some (RInt z)).
Proof.
  split; [|split].
  - intros (slots & n & r & _ & _ & _ & Hv)%get_Ok_inv.
    by apply truediv_returns_float in Hv.
  - intros (slots & n & r & _ & _ & _ & Hv)%get_Ok_inv.
    simpl in Hv. unfold math_degrees, mbind, result_bind in Hv.
    destruct (as_float _); [|done]. injection Hv as <-. eauto.
  - intros (slots & w & n & Hslots & Hv & Hi & Ht)%set_Ok_inv.
    rewrite (set_written_run locked_drags_timeout v w d slots n) by done.
    cbn [snd properties].
    simpl in Hv. unfold mbind, result_bind in Hv.
    destruct (mul (VInt 1000) v) as [x|]; [|done].
    apply int_returns_int in Hv as [z ->].
    exists (<[n := RInt z]> slots), n, z.
    split; [apply lookup_insert_eq|].
    split; [by rewrite index_insert|].
    apply list_lookup_insert_eq. by eapply index_Ok_lt.
Qed.

Lemma converting_descriptors_types_witness :
  let d := device_with "Synaptics Locked Drags Timeout" [RInt 1500] in
  (__get__ locked_drags_timeout d).1 = Ok (VFloat 1.5) ∧
  ∃ f, VFloat 1.5 = VFloat f.
Proof.
  cbv zeta.
  match goal with |- ?H ∧ _ => assert H as Hget by (vm_compute; reflexivity) end.
  split; [exact Hget|].
  exact (proj1 (converting_descriptors_types _ _) Hget).
Defined.

(** ** Slot indices below zero *)

(** X19: the slot index is a Python list index: on a sequence of length
    [len], an index from [-len] to [-1] reads the slot [len + item]
    counted from the start instead of raising, and [__get__] raises
    [IndexError] exactly when the index is below [-len] or at least
    [len]. *)
Theorem get_index_error_iff (p : device_property) (d : InputDevice)
    (slots : list raw) :
  properties d !! property_name p = Some slots →
  conversion_does_not_index p →
  ((__get__ p d).1 = Raise IndexError
   ↔ (item p < - Z.of_nat (length slots)
      ∨ Z.of_nat (length slots) ≤ item p)%Z)
  ∧ (∀ r, (- Z.of_nat (length slots) ≤ item p < 0)%Z →
       slots !! Z.to_nat (item p + Z.of_nat (length slots)) = Some r →
       (__get__ p d).1
       = convert_from_property p (as_read (property_type p) r)).
Proof.
  intros Hslots Hconv. split.
  - destruct (index_cases slots (item p)) as [Hi | [n Hi]].
    + split.
      * intros _.
        destruct (decide (- Z.of_nat (length slots) ≤ item p
                          < Z.of_nat (length slots))%Z) as [Hin|]; [|lia].
        apply index_Ok_iff in Hin as [n Hn]. congruence.
      * intros _. rewrite (get_run p d slots Hslots). simpl.
        unfold Py.getitem. by rewrite index_fmap, Hi.
    + destruct (lookup_lt_is_Some_2 slots n (index_Ok_lt _ _ _ Hi)) as [r Hr].
      rewrite (get_at p d slots n r Hslots Hi Hr). split.
      * intros Hraise. by destruct (Hconv (as_read (property_type p) r)).
      * intros Hout. assert (∃ m, index slots (item p) = Ok m) as Hok by eauto.
        apply index_Ok_iff in Hok. lia.
  - intros r Hneg Hr.
    apply (get_at p d slots (Z.to_nat (item p + Z.of_nat (length slots))) r
             Hslots); [|done].
    unfold index.
    replace (0 <=? item p)%Z with false by (symmetry; apply Z.leb_gt; lia).
    replace (item p <? 0)%Z with true by (symmetry; apply Z.ltb_lt; lia).
    replace (0 <=? item p + Z.of_nat (length slots))%Z with true
      by (symmetry; apply Z.leb_le; lia).
    done.
Qed.

Lemma get_index_error_iff_witness :
  let p := new (__init__ "Synaptics Tap Action" "byte" (-1)) eq_refl in
  let d := device_with "Synaptics Tap Action" [RInt 0; RInt 3; RInt 2] in
  properties d !! property_name p = Some [RInt 0; RInt 3; RInt 2] ∧
  (__get__ p d).1 = Ok (VInt 2).
Proof.
  cbv zeta. split; [apply device_with_lookup|].
  refine (proj2 (get_index_error_iff
    (new (__init__ "Synaptics Tap Action" "byte" (-1)) eq_refl)
    (device_with "Synaptics Tap Action" [RInt 0; RInt 3; RInt 2])
    [RInt 0; RInt 3; RInt 2] _ _) (RInt 2) _ _).
  - apply device_with_lookup.
  - intros v. discriminate.
  - simpl. lia.
  - reflexivity.
Defined.
